(** * HanNet: the wavefunction ansatz of [src/dlqmc/nn/hannet.py]

    A shallow embedding of the class [HanNet] (its constructor,
    [tracked_parameters] and [forward]) and the properties of its
    orchestration: which sub-modules exist, which factors enter the
    amplitude, what the diagnostic context can see, and how the amplitude
    behaves under exchange of same-spin particles.

    The numeric engine is kept abstract: scalars are a type [Sc] with
    uninterpreted operations, so every statement that needs no algebraic
    law also holds for the rounded arithmetic of the tensor library.  The
    laws a statement needs (for instance that a sum does not depend on the
    order of its terms) are explicit hypotheses of that statement.

    The classes [LaughlinAnsatz], [ElectronicSchnet], [DistanceBasis],
    [NuclearAsymptotic], [ElectronicAsymptotic], the function
    [get_log_dnn] and the base class [BaseWFNet] are imported by
    [hannet.py] from sibling files; their forward computations are
    parameters of the development ([Engine]). *)

From Corelib Require Import PrimFloat.
From Stdlib Require Import String ZArith.
From stdpp Require Import base list strings.

Open Scope string_scope.
Open Scope list_scope.
Open Scope nat_scope.

(** ** Results of Python calls *)

Inductive PyExc : Type :=
  | AttributeError (attr : string)
  | ValueError (msg : string).

Inductive Result (A : Type) : Type :=
  | Ok (a : A)
  | Raise (e : PyExc).

Arguments Ok {A} a.
Arguments Raise {A} e.


(** ** Scalars and values *)

(** The operations of the numeric engine on one scalar. *)
Record ScalarOps (Sc : Type) : Type := {
  zero : Sc;
  one : Sc;
  add : Sc -> Sc -> Sc;
  mul : Sc -> Sc -> Sc;
  neg : Sc -> Sc;
  exp : Sc -> Sc
}.

Arguments zero {Sc} _.
Arguments one {Sc} _.
Arguments add {Sc} _ _ _.
Arguments mul {Sc} _ _ _.
Arguments neg {Sc} _ _.
Arguments exp {Sc} _ _.



(** A value that takes part in the final product: the Python float [1.0]
    of an absent factor, or a tensor with one entry per sample. *)
Inductive Val (Sc : Type) : Type :=
  | PyFloat (x : Sc)
  | Tensor (xs : list Sc).

Arguments PyFloat {Sc} x.
Arguments Tensor {Sc} xs.

(** ** The diagnostic context *)

(** Modelled from the spec: the debug object of [..utils] is a
    scoped-context object offering a descend-into-named-scope operation
    ([with debug.cd(label)], entered and left) and a record-named-value
    operation ([debug[key] = value]).  An implementation is any state type
    with these three transitions; they change the debug object only (they
    neither raise nor write into the tensor they are handed). *)
Record DebugOps (Sc St : Type) : Type := {
  cd_enter : string -> St -> St;
  cd_exit : string -> St -> St;
  setitem : string -> Val Sc -> St -> St
}.

Arguments cd_enter {Sc St} _ _ _.
Arguments cd_exit {Sc St} _ _ _.
Arguments setitem {Sc St} _ _ _ _.

(** Modelled from the spec: [NULL_DEBUG], the no-op implementation that is
    the default of [forward]. *)
Definition NULL_DEBUG_ops (Sc : Type) : DebugOps Sc unit := {|
  cd_enter := fun _ st => st;
  cd_exit := fun _ st => st;
  setitem := fun _ _ st => st
|}.

Definition NULL_DEBUG : unit := tt.

(** What a sub-module that was handed the debug object does with it. *)
Inductive DebugEvent (Sc : Type) : Type :=
  | EvEnter (label : string)
  | EvExit (label : string)
  | EvSet (key : string) (v : Val Sc).

Arguments EvEnter {Sc} label.
Arguments EvExit {Sc} label.
Arguments EvSet {Sc} key v.

Definition apply_event {Sc St} (d : DebugOps Sc St) (st : St) (e : DebugEvent Sc) : St :=
  match e with
  | EvEnter l => cd_enter d l st
  | EvExit l => cd_exit d l st
  | EvSet k v => setitem d k v st
  end.

Definition replay {Sc St} (d : DebugOps Sc St) (evs : list (DebugEvent Sc)) (st : St) : St :=
  fold_left (apply_event d) evs st.

(** ** Index helpers *)

(** A Python slice [start:stop] with step 1 and non-negative bounds. *)
Record slice : Type := {
  start : option nat;
  stop : option nat
}.

Definition getslice {A} (s : slice) (l : list A) : list A :=
  let l1 := match stop s with Some e => take e l | None => l end in
  match start s with Some b => drop b l1 | None => l1 end.

(** [D[idxs, jdxs]] on one sample's matrix. *)
Definition block {A} (idxs jdxs : slice) (D : list (list A)) : list (list A) :=
  getslice jdxs <$> getslice idxs D.



(** ** The objects built by the constructor *)

Inductive Activation : Type :=
  | SSP.

(** [Concat(net)], the pair network of an antisymmetrization module. *)
Inductive PairModule (Net : Type) : Type :=
  | Concat (net : Net).

Arguments Concat {Net} net.

(** The layers of [nn.Sequential(odd_factory(latent_dim), nn.Sigmoid())]. *)
Inductive Layer (Net : Type) : Type :=
  | FromFactory (net : Net)
  | Sigmoid.

Arguments FromFactory {Net} net.
Arguments Sigmoid {Net}.

Inductive OddModule (Net : Type) : Type :=
  | Sequential (layers : list (Layer Net)).

Arguments Sequential {Net} layers.

(** [LaughlinAnsatz(pair_net, odd_net)] *)
Record LaughlinAnsatz (Net : Type) : Type := {
  la_pair : PairModule Net;
  la_odd : OddModule Net
}.

Arguments la_pair {Net} _.
Arguments la_odd {Net} _.

(** [DistanceBasis(basis_dim, **kwargs)] *)
Record DistanceBasis (Sc : Type) : Type := {
  db_basis_dim : nat;
  db_kwargs : list (string * Sc)
}.

Arguments db_basis_dim {Sc} _.
Arguments db_kwargs {Sc} _.

(** [NuclearAsymptotic(charges, ion_potential, **kwargs)] *)
Record NuclearAsymptotic (Sc : Type) : Type := {
  na_charges : list Sc;
  ion_potential : Sc;
  na_kwargs : list (string * Sc)
}.

Arguments na_charges {Sc} _.
Arguments ion_potential {Sc} _.
Arguments na_kwargs {Sc} _.

(** [ElectronicAsymptotic(cusp=cusp)] *)
Record ElectronicAsymptotic (Sc : Type) : Type := {
  cusp : Sc
}.

Arguments cusp {Sc} _.

(** [ElectronicSchnet(n_up, n_down, n_nuclei, n_interactions, basis_dim,
    kernel_dim, embedding_dim, interaction_factory=...)] *)
Record ElectronicSchnet (IFactory : Type) : Type := {
  sn_n_up : nat;
  sn_n_down : nat;
  sn_n_nuclei : nat;
  sn_n_interactions : nat;
  sn_basis_dim : nat;
  sn_kernel_dim : nat;
  sn_embedding_dim : nat;
  sn_interaction_factory : option IFactory
}.

(** ** Shapes *)

Definition Coord (Sc : Type) : Type := Sc * Sc * Sc.

(** One sample: the coordinates of all particles, up group first. *)
Abbreviation Sample Sc := (list (Coord Sc)).

(** A batch, of shape [batch, total_particles, 3]. *)
Abbreviation Batch Sc := (list (list (Coord Sc))).

(** A per-sample matrix, of shape [rows, columns]. *)
Abbreviation Matrix A := (list (list A)).

Section HanNet.

(** Scalars, the networks returned by factories, interaction factories,
    distance features and particle embeddings. *)
Context {Sc Net IFactory Feat Emb : Type}.
Context (ops : ScalarOps Sc).


(** The forward computations of the sub-modules that [hannet.py] imports,
    one sample at a time (a batched call maps them over the batch), and
    what each records in a debug object it is handed:
    - [get_log_dnn(in_dim, out_dim, activation, n_layers=, last_bias=)],
      the last argument [None] when the call leaves it out;
    - [dist], the distance of two points, the entry of [pairwise_distance];
    - [orbital_forward], the orbital network on one particle's embedding,
      its output of width one squeezed. *)
Record Engine : Type := {
  get_log_dnn : nat -> nat -> Activation -> nat -> option bool -> Net;
  dist : Coord Sc -> Coord Sc -> Sc;
  DistanceBasis_forward : DistanceBasis Sc -> Sc -> Feat;
  ElectronicSchnet_forward : ElectronicSchnet IFactory -> Matrix Feat -> list Emb;
  ElectronicSchnet_trace :
    ElectronicSchnet IFactory -> list (Matrix Feat) -> list (DebugEvent Sc);
  orbital_forward : Net -> Emb -> Sc;
  LaughlinAnsatz_forward : LaughlinAnsatz Net -> Sample Sc -> Matrix (list Sc) -> Sc;
  LaughlinAnsatz_trace :
    LaughlinAnsatz Net -> list (Sample Sc) -> list (Matrix (list Sc)) -> list (DebugEvent Sc);
  NuclearAsymptotic_forward : NuclearAsymptotic Sc -> Matrix Sc -> Sc;
  ElectronicAsymptotic_forward : ElectronicAsymptotic Sc -> list Sc -> Sc
}.

Context (eng : Engine).

(** *** Helpers from [..utils] and [.base] *)

(** Modelled from the spec: [pairwise_distance(A, B)] returns the matrix
    [D] with [D[i,j]] the distance between [A[i]] and [B[j]]. *)
Definition pairwise_distance (A B : list (Coord Sc)) : Matrix Sc :=
  (fun a => dist eng a <$> B) <$> A.

(** Modelled from the spec: [triu_flat] flattens the strict upper
    triangle of a square matrix, row by row: of row [i] the entries right
    of the diagonal. *)
Definition triu_flat (D : Matrix Sc) : list Sc :=
  concat (imap (fun i row => drop (S i) row) D).

(** Modelled from the spec: [dctsel(kwargs, keys)] collects from the
    options bag only the entries whose key is asked for. *)
Definition dctsel (kwargs : list (string * Sc)) (keys : list string) : list (string * Sc) :=
  filter (fun kv => fst kv ∈ keys) kwargs.

(** *** The model

    An optional sub-module is [None] or a module object.  In the
    conditions [if not net], [if asymp] and [if self.asymp_same] a module
    object counts as true (these classes define neither [__bool__] nor
    [__len__]), so each condition tests for [None]. *)

Record HanNet : Type := {
  n_up : nat;
  coords : list (Coord Sc);
  charges : list Sc;
  dist_basis : DistanceBasis Sc;
  asymp_nuc : NuclearAsymptotic Sc;
  asymp_same : option (ElectronicAsymptotic Sc);
  asymp_anti : option (ElectronicAsymptotic Sc);
  schnet : ElectronicSchnet IFactory;
  orbital : Net;
  anti_up : option (LaughlinAnsatz Net);
  anti_down : option (LaughlinAnsatz Net)
}.

(** Modelled from the spec: [BaseWFNet.spin_slices], the two contiguous
    groups of a sample, the first [n_up] particles and the rest. *)
Definition spin_slices (self : HanNet) : list slice :=
  [ {| start := None; stop := Some (n_up self) |};
    {| start := Some (n_up self); stop := None |} ].

(** *** The constructor *)

(** The arguments of [HanNet.__init__].  A factory left out is [None]; a
    factory that is passed is a function object, which Python takes as
    true in [if not factory]. *)
Record InitArgs : Type := {
  geom : list (Coord Sc * Sc);
  arg_n_up : nat;
  arg_n_down : nat;
  basis_dim : nat;
  kernel_dim : nat;
  embedding_dim : nat;
  latent_dim : nat;
  n_interactions : nat;
  n_orbital_layers : nat;
  ion_pot : Sc;
  cusp_same : option Sc;
  cusp_anti : option Sc;
  interaction_factory : option IFactory;
  orbital_factory : option (nat -> Net);
  pair_factory : option (nat -> nat -> Net);
  odd_factory : option (nat -> Net);
  kwargs : list (string * Sc)
}.

(** The defaults of the signature; [ion_pot] (0.5 in the source) is a
    scalar of the engine and is passed in. *)
Definition default_args (g : list (Coord Sc * Sc)) (nu nd : nat) (ip : Sc) : InitArgs := {|
  geom := g;
  arg_n_up := nu;
  arg_n_down := nd;
  basis_dim := 32;
  kernel_dim := 64;
  embedding_dim := 128;
  latent_dim := 10;
  n_interactions := 3;
  n_orbital_layers := 3;
  ion_pot := ip;
  cusp_same := None;
  cusp_anti := None;
  interaction_factory := None;
  orbital_factory := None;
  pair_factory := None;
  odd_factory := None;
  kwargs := []
|}.

(** The calls the constructor makes to the factories, in order. *)
Inductive FactoryCall : Type :=
  | OrbitalCall (embedding_dim : nat)
  | PairCall (in_dim latent_dim : nat)
  | OddCall (latent_dim : nat).

Definition default_orbital_factory (a : InitArgs) : nat -> Net :=
  fun embedding_dim => get_log_dnn eng embedding_dim 1 SSP (n_orbital_layers a) None.

Definition default_pair_factory : nat -> nat -> Net :=
  fun in_dim latent_dim => get_log_dnn eng in_dim latent_dim SSP 2 (Some false).

Definition default_odd_factory : nat -> Net :=
  fun latent_dim => get_log_dnn eng latent_dim 1 SSP 2 (Some false).

(** [if not factory: def factory(...)] *)
Definition the_orbital_factory (a : InitArgs) : nat -> Net :=
  match orbital_factory a with
  | Some f => f
  | None => default_orbital_factory a
  end.

Definition the_pair_factory (a : InitArgs) : nat -> nat -> Net :=
  match pair_factory a with
  | Some f => f
  | None => default_pair_factory
  end.

Definition the_odd_factory (a : InitArgs) : nat -> Net :=
  match odd_factory a with
  | Some f => f
  | None => default_odd_factory
  end.

(** One element of the generator of lines 79-87: the module of a spin
    group of [n_elec] particles, and the factory calls made for it. *)
Definition make_anti (a : InitArgs) (n_elec : nat) :
    option (LaughlinAnsatz Net) * list FactoryCall :=
  if 1 <? n_elec then
    (Some {| la_pair := Concat (the_pair_factory a 7 (latent_dim a));
             la_odd := Sequential [FromFactory (the_odd_factory a (latent_dim a)); Sigmoid] |},
     [PairCall 7 (latent_dim a); OddCall (latent_dim a)])
  else (None, []).

(** One element of the generator of lines 64-67. *)
Definition make_asymp (c : option Sc) : option (ElectronicAsymptotic Sc) :=
  match c with
  | Some c => Some {| cusp := c |}
  | None => None
  end.

(** [HanNet.__init__]: the model and the log of factory calls. *)
Definition HanNet_init (a : InitArgs) : HanNet * list FactoryCall :=
  let (up, calls_up) := make_anti a (arg_n_up a) in
  let (down, calls_down) := make_anti a (arg_n_down a) in
  ({| n_up := arg_n_up a;
      coords := fst <$> geom a;
      charges := snd <$> geom a;
      dist_basis := {| db_basis_dim := basis_dim a;
                       db_kwargs := dctsel (kwargs a) ["cutoff"] |};
      asymp_nuc := {| na_charges := snd <$> geom a;
                      ion_potential := ion_pot a;
                      na_kwargs := dctsel (kwargs a) ["alpha"] |};
      asymp_same := make_asymp (cusp_same a);
      asymp_anti := make_asymp (cusp_anti a);
      schnet := {| sn_n_up := arg_n_up a;
                   sn_n_down := arg_n_down a;
                   sn_n_nuclei := length (geom a);
                   sn_n_interactions := n_interactions a;
                   sn_basis_dim := basis_dim a;
                   sn_kernel_dim := kernel_dim a;
                   sn_embedding_dim := embedding_dim a;
                   sn_interaction_factory := interaction_factory a |};
      orbital := the_orbital_factory a (embedding_dim a);
      anti_up := up;
      anti_down := down |},
   OrbitalCall (embedding_dim a) :: calls_up ++ calls_down).

(** *** [tracked_parameters] *)

Definition tracked_parameters (self : HanNet) : list (string * Sc) :=
  let params := [("ion_pot", ion_potential (asymp_nuc self))] in
  fold_left
    (fun params (la : string * option (ElectronicAsymptotic Sc)) =>
       match snd la with
       | Some asymp => params ++ [(fst la, cusp asymp)]
       | None => params
       end)
    [("cusp_same", asymp_same self); ("cusp_anti", asymp_anti self)]
    params.

(** *** Broadcast arithmetic on the factors *)

(** [a * b] where either side is a Python float or a tensor of shape
    [batch]. *)
Definition bmul (a b : Val Sc) : Val Sc :=
  match a, b with
  | PyFloat x, PyFloat y => PyFloat (mul ops x y)
  | PyFloat x, Tensor ys => Tensor (mul ops x <$> ys)
  | Tensor xs, PyFloat y => Tensor ((fun x => mul ops x y) <$> xs)
  | Tensor xs, Tensor ys => Tensor (zip_with (mul ops) xs ys)
  end.

(** [t.sum(dim=-1)] on one row. *)
Definition ssum (xs : list Sc) : Sc := foldr (add ops) (zero ops) xs.

(** Attribute lookup on a tensor of shape [batch, m, n], for the method
    that flattens from dimension 1 on: [torch.Tensor] has [flatten], any
    other name raises [AttributeError]. *)
Definition Tensor_getattr (name : string) :
    Result (list (Matrix Sc) -> list (list Sc)) :=
  if decide (name = "flatten") then Ok (fmap (fun D => concat D)) else Raise (AttributeError name).

(** *** [forward]

    A call runs on the model object and the debug object; both are state
    that the call could change, and an exception leaves the state as it is
    at the raise. *)

Context {St : Type} (dbg : DebugOps Sc St).

Definition M (A : Type) : Type := HanNet * St -> Result A * (HanNet * St).

Definition ret {A} (a : A) : M A := fun s => (Ok a, s).

Definition bind {A B} (m : M A) (k : A -> M B) : M B :=
  fun s =>
    match m s with
    | (Ok a, s') => k a s'
    | (Raise e, s') => (Raise e, s')
    end.

Definition lift {A} (r : Result A) : M A := fun s => (r, s).

Notation "x <- m ;; k" := (bind m (fun x => k))
  (at level 100, m at next level, right associativity).

(** [self.field] *)
Definition attr {A} (field : HanNet -> A) : M A := fun s => (Ok (field (fst s)), s).

(** [debug[key] = value] *)
Definition debug_setitem (key : string) (v : Val Sc) : M unit :=
  fun s => (Ok tt, (fst s, setitem dbg key v (snd s))).

(** [with debug.cd(label): body]; the scope is left also when the body
    raises. *)
Definition with_cd {A} (label : string) (body : M A) : M A :=
  fun s =>
    let (r, s') := body (fst s, cd_enter dbg label (snd s)) in
    (r, (fst s', cd_exit dbg label (snd s'))).

(** [self.schnet(dists_basis, debug=debug)] *)
Definition call_schnet (net : ElectronicSchnet IFactory) (dists_basis : list (Matrix Feat)) :
    M (list (list Emb)) :=
  fun s =>
    (Ok (ElectronicSchnet_forward eng net <$> dists_basis),
     (fst s, replay dbg (ElectronicSchnet_trace eng net dists_basis) (snd s))).

(** [net(rs, dists, debug=debug).squeeze(dim=-1)] for an
    antisymmetrization module. *)
Definition call_anti (net : LaughlinAnsatz Net) (rs : list (Sample Sc))
    (dists : list (Matrix (list Sc))) : M (Val Sc) :=
  fun s =>
    (Ok (Tensor (zip_with (LaughlinAnsatz_forward eng net) rs dists)),
     (fst s, replay dbg (LaughlinAnsatz_trace eng net rs dists) (snd s))).

(** [D[..., None]] on one sample's matrix: a trailing axis of length one. *)
Definition unsqueeze_last (D : Matrix Sc) : Matrix (list Sc) :=
  (fun row : list Sc => (fun d : Sc => [d]) <$> row) <$> D.

(** The body of the loop of lines 108-120 for one
    [(i, (label, net, idxs))]. *)
Definition anti_step (rs : Batch Sc) (dists_elec : list (Matrix Sc)) (antis : list (Val Sc))
    (item : nat * (string * option (LaughlinAnsatz Net) * slice)) : M (list (Val Sc)) :=
  let '(i, (label, net, idxs)) := item in
  match net with
  | None => ret antis
  | Some net =>
      with_cd label
        (v <- call_anti net (getslice idxs <$> rs)
                ((fun D => unsqueeze_last (block idxs idxs D)) <$> dists_elec) ;;
         ret (<[i := v]> antis))
  end.

Fixpoint for_each {A B} (body : B -> A -> M B) (acc : B) (items : list A) : M B :=
  match items with
  | [] => ret acc
  | x :: items => acc' <- body acc x ;; for_each body acc' items
  end.

(** [enumerate(zip(xs, ys, zs))] *)
Definition enumerate_zip3 {A B C} (xs : list A) (ys : list B) (zs : list C) :
    list (nat * (A * B * C)) :=
  imap (fun i x => (i, x)) (zip (zip xs ys) zs).

(** Lines 107-120: the two antisymmetric factors, [1.0] where the module
    is absent. *)
Definition forward_antis (rs : Batch Sc) (dists_elec : list (Matrix Sc)) : M (list (Val Sc)) :=
  net_up <- attr anti_up ;;
  net_down <- attr anti_down ;;
  slices <- attr spin_slices ;;
  for_each (anti_step rs dists_elec) [PyFloat (one ops); PyFloat (one ops)]
    (enumerate_zip3 ["anti_up"; "anti_down"] [net_up; net_down] slices).

(** Lines 123-132, the right-hand side: the same-spin factor.  The
    concatenation along dimension 1 of the per-group flattened triangles is
    taken sample by sample. *)
Definition forward_asymp_same (dists_elec : list (Matrix Sc)) : M (Val Sc) :=
  asymp_same_ <- attr asymp_same ;;
  match asymp_same_ with
  | Some net =>
      slices <- attr spin_slices ;;
      ret (Tensor ((fun D =>
             ElectronicAsymptotic_forward eng net
               (concat ((fun idxs => triu_flat (block idxs idxs D)) <$> slices)))
           <$> dists_elec))
  | None => ret (PyFloat (one ops))
  end.

(** Lines 133-139, the right-hand side: the opposite-spin factor.  The
    method name is the one written in the source. *)
Definition forward_asymp_anti (dists_elec : list (Matrix Sc)) : M (Val Sc) :=
  asymp_anti_ <- attr asymp_anti ;;
  match asymp_anti_ with
  | Some net =>
      n_up_ <- attr n_up ;;
      n_up' <- attr n_up ;;
      flattten <- lift (Tensor_getattr "flattten") ;;
      ret (Tensor (ElectronicAsymptotic_forward eng net <$>
             flattten (block {| start := None; stop := Some n_up_ |}
                             {| start := Some n_up'; stop := None |} <$> dists_elec)))
  | None => ret (PyFloat (one ops))
  end.

Definition forward_body (rs : Batch Sc) : M (Val Sc) :=
  let dists_elec := (fun r => pairwise_distance r r) <$> rs in
  coords_ <- attr coords ;;
  let dists_nuc := (fun r => pairwise_distance r coords_) <$> rs in
  let dists := zip_with (zip_with app) dists_elec dists_nuc in
  dist_basis_ <- attr dist_basis ;;
  let dists_basis :=
    (fun D : Matrix Sc =>
       (fun row : list Sc => DistanceBasis_forward eng dist_basis_ <$> row) <$> D) <$> dists in
  schnet_ <- attr schnet ;;
  xs <- with_cd "schnet" (call_schnet schnet_ dists_basis) ;;
  orbital_ <- attr orbital ;;
  let jastrow := (fun x => ssum (orbital_forward eng orbital_ <$> x)) <$> xs in
  _ <- debug_setitem "jastrow" (Tensor jastrow) ;;
  antis <- forward_antis rs dists_elec ;;
  match antis with
  | [anti_up_; anti_down_] =>
      asymp_nuc_ <- attr asymp_nuc ;;
      let asymp_nuc_v := Tensor (NuclearAsymptotic_forward eng asymp_nuc_ <$> dists_nuc) in
      _ <- debug_setitem "asymp_nuc" asymp_nuc_v ;;
      asymp_same_v <- forward_asymp_same dists_elec ;;
      _ <- debug_setitem "asymp_same" asymp_same_v ;;
      asymp_anti_v <- forward_asymp_anti dists_elec ;;
      _ <- debug_setitem "asymp_anti" asymp_anti_v ;;
      let asymp := bmul (bmul asymp_nuc_v asymp_same_v) asymp_anti_v in
      ret (bmul (bmul (bmul anti_up_ anti_down_) (Tensor (exp ops <$> jastrow))) asymp)
  | _ => lift (Raise (ValueError "unpack"))
  end.

(** [self.forward(rs, debug)]: the result, and the model and the debug
    object after the call. *)
Definition forward (self : HanNet) (rs : Batch Sc) (debug : St) : Result (Val Sc) * (HanNet * St) :=
  forward_body rs (self, debug).

(** *** The factors of the amplitude

    The values that the statements below name, each written for one sample
    [r] and mapped over the batch. *)

Definition up_slice (self : HanNet) : slice := {| start := None; stop := Some (n_up self) |}.

Definition down_slice (self : HanNet) : slice := {| start := Some (n_up self); stop := None |}.

(** The input of the embedding network for one sample: the distance
    features of every particle against every particle and every nucleus. *)
Definition features_of (self : HanNet) (r : Sample Sc) : Matrix Feat :=
  (fun row : list Sc => DistanceBasis_forward eng (dist_basis self) <$> row)
    <$> zip_with app (pairwise_distance r r) (pairwise_distance r (coords self)).

(** The embedding of each particle of one sample. *)
Definition embeddings_of (self : HanNet) (r : Sample Sc) : list Emb :=
  ElectronicSchnet_forward eng (schnet self) (features_of self r).

(** [jastrow]: the sum over the particles of the orbital network applied
    to each particle's embedding. *)
Definition jastrow_of (self : HanNet) (rs : Batch Sc) : list Sc :=
  (fun r => ssum (orbital_forward eng (orbital self) <$> embeddings_of self r)) <$> rs.

(** What an antisymmetrization module returns on one sample. *)
Definition anti_sample (net : LaughlinAnsatz Net) (idxs : slice) (r : Sample Sc) : Sc :=
  LaughlinAnsatz_forward eng net (getslice idxs r)
    (unsqueeze_last (block idxs idxs (pairwise_distance r r))).

(** [anti_up] and [anti_down]: the output of the module, or [1.0]. *)
Definition anti_of (net : option (LaughlinAnsatz Net)) (idxs : slice) (rs : Batch Sc) : Val Sc :=
  match net with
  | Some net => Tensor (anti_sample net idxs <$> rs)
  | None => PyFloat (one ops)
  end.

(** [asymp_nuc] *)
Definition asymp_nuc_of (self : HanNet) (rs : Batch Sc) : Val Sc :=
  Tensor ((fun r => NuclearAsymptotic_forward eng (asymp_nuc self)
                      (pairwise_distance r (coords self))) <$> rs).

(** The input of the same-spin module on one sample. *)
Definition same_spin_dists (self : HanNet) (r : Sample Sc) : list Sc :=
  triu_flat (block (up_slice self) (up_slice self) (pairwise_distance r r))
  ++ triu_flat (block (down_slice self) (down_slice self) (pairwise_distance r r)).

(** [asymp_same]: the output of the module, or [1.0]. *)
Definition asymp_same_of (self : HanNet) (rs : Batch Sc) : Val Sc :=
  match asymp_same self with
  | Some net => Tensor ((fun r => ElectronicAsymptotic_forward eng net (same_spin_dists self r)) <$> rs)
  | None => PyFloat (one ops)
  end.

(** The opposite-spin factor as the specification describes it: the
    module applied to the up-against-down block of the distance matrix,
    flattened per sample; [1.0] when the module is absent. *)
Definition spec_asymp_opposite (self : HanNet) (rs : Batch Sc) : Val Sc :=
  match asymp_anti self with
  | Some net =>
      Tensor ((fun r => ElectronicAsymptotic_forward eng net
                 (concat (block (up_slice self) (down_slice self) (pairwise_distance r r)))) <$> rs)
  | None => PyFloat (one ops)
  end.

(** The product of line 141 with a given opposite-spin factor, grouped as
    the source groups it. *)
Definition amplitude_with (self : HanNet) (rs : Batch Sc) (asymp_anti_v : Val Sc) : Val Sc :=
  bmul
    (bmul (bmul (anti_of (anti_up self) (up_slice self) rs)
                (anti_of (anti_down self) (down_slice self) rs))
          (Tensor (exp ops <$> jastrow_of self rs)))
    (bmul (bmul (asymp_nuc_of self rs) (asymp_same_of self rs)) asymp_anti_v).

(** The amplitude as the specification describes it. *)
Definition spec_amplitude (self : HanNet) (rs : Batch Sc) : Val Sc :=
  amplitude_with self rs (spec_asymp_opposite self rs).


Definition val_at (v : Val Sc) (b : nat) : option Sc :=
  match v with
  | PyFloat x => Some x
  | Tensor xs => xs !! b
  end.

(** *** Spin groups and the contracts of the sub-modules *)


(** The distances of all unordered pairs of a group, first particle
    against the later ones, then the rest. *)
Fixpoint pair_dists (g : list (Coord Sc)) : list Sc :=
  match g with
  | [] => []
  | x :: t => (dist eng x <$> t) ++ pair_dists t
  end.






End HanNet.

Arguments Engine : clear implicits.
Arguments HanNet : clear implicits.
Arguments InitArgs : clear implicits.
Arguments FactoryCall : clear implicits.

(** ** What [forward] does to the debug object, and other views of the code *)

Section HanNet_effects.

Context {Sc Net IFactory Feat Emb : Type}.
Context (ops : ScalarOps Sc) (eng : Engine Sc Net IFactory Feat Emb).

(** The debug operations of one pass of the loop of lines 108-120: none
    for an absent module, otherwise the scope of the label around what the
    module records. *)
Definition anti_trace (label : string) (net : option (LaughlinAnsatz Net)) (idxs : slice)
    (rs : Batch Sc) : list (DebugEvent Sc) :=
  match net with
  | None => []
  | Some net =>
      EvEnter label
      :: LaughlinAnsatz_trace eng net (getslice idxs <$> rs)
           ((fun r => unsqueeze_last (block idxs idxs (pairwise_distance eng r r))) <$> rs)
      ++ [EvExit label]
  end.

(** The debug operations of one call of [forward], in order. *)
Definition forward_trace (self : HanNet Sc Net IFactory) (rs : Batch Sc) : list (DebugEvent Sc) :=
  EvEnter "schnet"
  :: ElectronicSchnet_trace eng (schnet self) (features_of eng self <$> rs)
  ++ [EvExit "schnet"; EvSet "jastrow" (Tensor (jastrow_of ops eng self rs))]
  ++ anti_trace "anti_up" (anti_up self) (up_slice self) rs
  ++ anti_trace "anti_down" (anti_down self) (down_slice self) rs
  ++ [EvSet "asymp_nuc" (asymp_nuc_of eng self rs);
      EvSet "asymp_same" (asymp_same_of ops eng self rs)]
  ++ match asymp_anti self with
     | None => [EvSet "asymp_anti" (PyFloat (one ops))]
     | Some _ => []
     end.

(** A debug object that keeps only the stack of open scopes. *)
Definition ScopeTracker : DebugOps Sc (list string) := {|
  cd_enter := fun label st => label :: st;
  cd_exit := fun label st => tail st;
  setitem := fun key v st => st
|}.

(** The factors of one sample [r], [one] for an absent module. *)
Definition anti_entry (net : option (LaughlinAnsatz Net)) (idxs : slice) (r : Sample Sc) : Sc :=
  match net with
  | Some net => anti_sample eng net idxs r
  | None => one ops
  end.

Definition jastrow_entry (self : HanNet Sc Net IFactory) (r : Sample Sc) : Sc :=
  ssum ops (orbital_forward eng (orbital self) <$> embeddings_of eng self r).

Definition asymp_nuc_entry (self : HanNet Sc Net IFactory) (r : Sample Sc) : Sc :=
  NuclearAsymptotic_forward eng (asymp_nuc self) (pairwise_distance eng r (coords self)).

Definition asymp_same_entry (self : HanNet Sc Net IFactory) (r : Sample Sc) : Sc :=
  match asymp_same self with
  | Some net => ElectronicAsymptotic_forward eng net (same_spin_dists eng self r)
  | None => one ops
  end.





(** The arguments of the constructor with another geometry, and with
    another options bag. *)
Definition with_geom (a : InitArgs Sc Net IFactory) (g : list (Coord Sc * Sc)) :
    InitArgs Sc Net IFactory := {|
  geom := g;
  arg_n_up := arg_n_up a;
  arg_n_down := arg_n_down a;
  basis_dim := basis_dim a;
  kernel_dim := kernel_dim a;
  embedding_dim := embedding_dim a;
  latent_dim := latent_dim a;
  n_interactions := n_interactions a;
  n_orbital_layers := n_orbital_layers a;
  ion_pot := ion_pot a;
  cusp_same := cusp_same a;
  cusp_anti := cusp_anti a;
  interaction_factory := interaction_factory a;
  orbital_factory := orbital_factory a;
  pair_factory := pair_factory a;
  odd_factory := odd_factory a;
  kwargs := kwargs a
|}.

Definition with_kwargs (a : InitArgs Sc Net IFactory) (kw : list (string * Sc)) :
    InitArgs Sc Net IFactory := {|
  geom := geom a;
  arg_n_up := arg_n_up a;
  arg_n_down := arg_n_down a;
  basis_dim := basis_dim a;
  kernel_dim := kernel_dim a;
  embedding_dim := embedding_dim a;
  latent_dim := latent_dim a;
  n_interactions := n_interactions a;
  n_orbital_layers := n_orbital_layers a;
  ion_pot := ion_pot a;
  cusp_same := cusp_same a;
  cusp_anti := cusp_anti a;
  interaction_factory := interaction_factory a;
  orbital_factory := orbital_factory a;
  pair_factory := pair_factory a;
  odd_factory := odd_factory a;
  kwargs := kw
|}.

(** A factor that broadcasts against a tensor of [n] entries: a float, or
    a tensor of [n] entries. *)
Definition broadcasts_to (n : nat) (v : Val Sc) : Prop :=
  match v with
  | PyFloat _ => True
  | Tensor xs => length xs = n
  end.

(** A map of space that keeps the distance of every two points: a
    translation, a rotation, a reflection. *)
Definition distance_preserving (phi : Coord Sc -> Coord Sc) : Prop :=
  forall a b, dist eng (phi a) (phi b) = dist eng a b.

End HanNet_effects.

(** ** An integer engine, for concrete runs

    Scalars are integers (with [2 ^ z] standing for the exponential), a
    network is the description of the call that built it, features and
    embeddings are integers. *)

Inductive ZNet : Type :=
  | LogDNN (in_dim out_dim : nat) (activation : Activation) (n_layers : nat)
           (last_bias : option bool).

Definition Zops : ScalarOps Z := {|
  zero := 0%Z;
  one := 1%Z;
  add := Z.add;
  mul := Z.mul;
  neg := Z.opp;
  exp := fun z => (2 ^ z)%Z
|}.

Definition Zeng : Engine Z ZNet unit Z Z := {|
  get_log_dnn := LogDNN;
  dist := fun a b =>
    Z.sqrt ((a.1.1 - b.1.1) ^ 2 + (a.1.2 - b.1.2) ^ 2 + (a.2 - b.2) ^ 2)%Z;
  DistanceBasis_forward := fun _ d => d;
  ElectronicSchnet_forward := fun _ F => ssum Zops <$> F;
  ElectronicSchnet_trace := fun _ F => [EvSet "x" (Tensor (ssum Zops <$> concat F))];
  orbital_forward := fun _ e => e;
  LaughlinAnsatz_forward := fun _ g _ =>
    match g with
    | [a; b] => (a.1.1 - b.1.1)%Z
    | _ => 0%Z
    end;
  LaughlinAnsatz_trace := fun _ _ _ => [];
  NuclearAsymptotic_forward := fun net D => (ion_potential net + ssum Zops (ssum Zops <$> D))%Z;
  ElectronicAsymptotic_forward := fun net xs => (cusp net + ssum Zops xs)%Z
|}.

(** A debug object that records: its state is the stack of open scopes
    and the recorded entries, last first, each under its dotted path. *)
Definition Recorder : DebugOps Z (list string * list (string * Val Z)) := {|
  cd_enter := fun label st => (label :: st.1, st.2);
  cd_exit := fun label st => (tail st.1, st.2);
  setitem := fun key v st =>
    (st.1, (String.concat "." (rev (key :: st.1)), v) :: st.2)
|}.

(** Two nuclei at (0,0,0) and (1,0,0) with charges (1,1). *)
Definition geom_H2 : list (Coord Z * Z) := [((0, 0, 0), 1); ((1, 0, 0), 1)]%Z.

(** [HanNet(geom, 1, 1)] *)
Definition args_1_1 : InitArgs Z ZNet unit := default_args geom_H2 1 1 1%Z.

(** [HanNet(geom, 2, 1)] *)
Definition args_2_1 : InitArgs Z ZNet unit := default_args geom_H2 2 1 1%Z.

(** [HanNet(geom, 1, 1, cusp_same=4, cusp_anti=5)] *)
Definition args_cusps : InitArgs Z ZNet unit := {|
  geom := geom_H2;
  arg_n_up := 1;
  arg_n_down := 1;
  basis_dim := 32;
  kernel_dim := 64;
  embedding_dim := 128;
  latent_dim := 10;
  n_interactions := 3;
  n_orbital_layers := 3;
  ion_pot := 1%Z;
  cusp_same := Some 4%Z;
  cusp_anti := Some 5%Z;
  interaction_factory := None;
  orbital_factory := None;
  pair_factory := None;
  odd_factory := None;
  kwargs := []
|}.

(** A batch of one sample of three particles, one of two samples of two
    particles, and a batch of three particles whose first two coincide. *)
Definition batch_3 : Batch Z := [[(1, 0, 0); (3, 0, 0); (7, 0, 0)]]%Z.

Definition batch_2 : Batch Z := [[(1, 0, 0); (3, 0, 0)]; [(0, 2, 0); (0, 0, 5)]]%Z.


(** The translation of a point by [v], and two samples of three
    particles. *)
Definition shift_Z (v : Coord Z) (c : Coord Z) : Coord Z :=
  (c.1.1 + v.1.1, c.1.2 + v.1.2, c.2 + v.2)%Z.

Definition batch_3_3 : Batch Z :=
  [[(1, 0, 0); (3, 0, 0); (7, 0, 0)]; [(0, 2, 0); (5, 0, 1); (0, 0, 5)]]%Z.

(** [HanNet(geom, 2, 1, cutoff=9, zzz=1, alpha=2)] and the same call
    without [zzz]. *)
Definition kwargs_before : list (string * Z) := [("cutoff", 9%Z)].

Definition kwargs_after : list (string * Z) := [("alpha", 2%Z)].

(** ** A binary64 engine, for sums and products under rounding

    Scalars are the kernel's binary64 floats with their rounded
    operations.  The exponential is computed by range reduction and a
    Taylor polynomial and, like the library's, overflows to infinity.  The
    sub-modules are simple enough to keep their contracts under rounding:
    the antisymmetrization of a group of two is the difference of the two
    first coordinates, the embedding of a particle is its distance to the
    first nucleus, the asymptotic factors are 1. *)













Arguments bmul : simpl never.

(** * Properties *)

(** ** Exchange of two entries of a list *)

Section swap_lemmas.

Context {A : Type}.
Implicit Types l k : list A.












End swap_lemmas.


Section HanNet_properties.

Context {Sc Net IFactory Feat Emb : Type}.
Context (ops : ScalarOps Sc) (eng : Engine Sc Net IFactory Feat Emb).

Section with_debug.

Context {St : Type} (dbg : DebugOps Sc St).

Lemma zip_with_fmap_both {A B C D} (f : B -> C -> D) (g : A -> B) (h : A -> C) (l : list A) :
  zip_with f (g <$> l) (h <$> l) = (fun a => f (g a) (h a)) <$> l.
Proof. induction l as [|a l IH]; csimpl; [done | by f_equal]. Qed.

Lemma forward_antis_eval (self : HanNet Sc Net IFactory) (rs : Batch Sc) (d : St) :
  exists d',
    forward_antis ops eng dbg rs ((fun r => pairwise_distance eng r r) <$> rs) (self, d) =
    (Ok [anti_of ops eng (anti_up self) (up_slice self) rs;
         anti_of ops eng (anti_down self) (down_slice self) rs],
     (self, d')).
Proof.
  unfold forward_antis, bind, attr, anti_of, anti_sample. simpl.
  destruct (anti_up self) as [up|], (anti_down self) as [down|]; simpl.
  all: unfold with_cd, bind, call_anti, ret; simpl.
  all: rewrite <- ?list_fmap_compose, ?zip_with_fmap_both; eexists; reflexivity.
Qed.

Lemma forward_asymp_same_eval (self : HanNet Sc Net IFactory) (rs : Batch Sc) (d : St) :
  forward_asymp_same ops eng ((fun r => pairwise_distance eng r r) <$> rs) (self, d) =
  (Ok (asymp_same_of ops eng self rs), (self, d)).
Proof.
  unfold forward_asymp_same, asymp_same_of, same_spin_dists, bind, attr, ret. simpl.
  destruct (asymp_same self) as [net|]; simpl; [|reflexivity].
  rewrite <- list_fmap_compose. unfold compose. simpl.
  do 3 f_equal. apply list_fmap_ext. intros _ r _. by rewrite app_nil_r.
Qed.

Lemma forward_asymp_anti_eval (self : HanNet Sc Net IFactory) (D : list (Matrix Sc)) (d : St) :
  forward_asymp_anti ops eng D (self, d) =
  (match asymp_anti self with
   | Some _ => Raise (AttributeError "flattten")
   | None => Ok (PyFloat (one ops))
   end, (self, d)).
Proof.
  unfold forward_asymp_anti, bind, attr, ret, lift. simpl.
  destruct (asymp_anti self) as [net|]; reflexivity.
Qed.

(** What [forward] returns and what it leaves of the model, for every
    model, batch and debug object. *)
Lemma forward_run (self : HanNet Sc Net IFactory) (rs : Batch Sc) (d : St) :
  exists d',
    forward ops eng dbg self rs d =
    (match asymp_anti self with
     | Some _ => Raise (AttributeError "flattten")
     | None => Ok (amplitude_with ops eng self rs (PyFloat (one ops)))
     end, (self, d')).
Proof.
  unfold forward, forward_body.
  do 3 (unfold bind at 1; unfold attr at 1; simpl).
  unfold bind at 1; unfold with_cd, call_schnet; simpl.
  unfold bind at 1; unfold attr at 1; simpl.
  unfold bind at 1; unfold debug_setitem at 1; simpl.
  unfold bind at 1.
  match goal with
  | |- context [forward_antis _ _ _ _ _ (self, ?d0)] =>
      destruct (forward_antis_eval self rs d0) as [d1 ->]
  end.
  unfold bind at 1; unfold attr at 1; simpl.
  unfold bind at 1; unfold debug_setitem at 1; simpl.
  unfold bind at 1. rewrite forward_asymp_same_eval.
  unfold bind at 1. unfold debug_setitem at 1. simpl.
  unfold bind at 1. rewrite forward_asymp_anti_eval.
  destruct (asymp_anti self) as [net|]; [eexists; reflexivity|].
  unfold bind, debug_setitem, ret; simpl. eexists. f_equal. f_equal.
  unfold amplitude_with, jastrow_of, asymp_nuc_of, embeddings_of, features_of.
  rewrite zip_with_fmap_both, <- !list_fmap_compose. reflexivity.
Qed.

Lemma forward_eval (self : HanNet Sc Net IFactory) (rs : Batch Sc) (d : St) :
  fst (forward ops eng dbg self rs d) =
  match asymp_anti self with
  | Some _ => Raise (AttributeError "flattten")
  | None => Ok (amplitude_with ops eng self rs (PyFloat (one ops)))
  end.
Proof. destruct (forward_run self rs d) as [d' ->]. reflexivity. Qed.

(** C2 (the code departs from the claim on one path).  For every model,
    batch and debug object, [forward] returns the product
    [anti_up * anti_down * exp(jastrow) * (asymp_nuc * asymp_same * asymp_opposite)]
    of the specification when the opposite-spin module is absent (its
    factor is then [1.0]); when the module is present the call raises
    [AttributeError] instead of returning the product. *)
Theorem forward_product_or_attribute_error
    (self : HanNet Sc Net IFactory) (rs : Batch Sc) (d : St) :
  fst (forward ops eng dbg self rs d) =
  match asymp_anti self with
  | None => Ok (spec_amplitude ops eng self rs)
  | Some _ => Raise (AttributeError "flattten")
  end.
Proof.
  rewrite forward_eval. unfold spec_amplitude, spec_asymp_opposite.
  destruct (asymp_anti self); reflexivity.
Qed.

(** C4.  A model constructed with fewer than two particles in a spin group
    has no antisymmetrization module for that group; the loop of [forward]
    leaves the factor of that group at the float [1.0], and that float is
    the factor of the group in the product that [forward] returns (the
    call raises, as for every model, when [cusp_anti] is configured).
    With [n_up = 1] and [n_down = 1] both modules are absent and both
    factors of the returned product are [1.0]. *)
Theorem absent_anti_module_factor_one
    (a : InitArgs Sc Net IFactory) (rs : Batch Sc) (d : St) :
  let m := fst (HanNet_init eng a) in
  let dists_elec := (fun r => pairwise_distance eng r r) <$> rs in
  let returned (anti_up_ anti_down_ : Val Sc) :=
    match asymp_anti m with
    | Some _ => Raise (AttributeError "flattten")
    | None =>
        Ok (bmul ops
              (bmul ops (bmul ops anti_up_ anti_down_)
                 (Tensor (exp ops <$> jastrow_of ops eng m rs)))
              (bmul ops (bmul ops (asymp_nuc_of eng m rs) (asymp_same_of ops eng m rs))
                 (PyFloat (one ops))))
    end in
  (arg_n_up a < 2 ->
   anti_up m = None /\
   (exists v d', forward_antis ops eng dbg rs dists_elec (m, d) =
                 (Ok [PyFloat (one ops); v], (m, d'))) /\
   fst (forward ops eng dbg m rs d) =
   returned (PyFloat (one ops)) (anti_of ops eng (anti_down m) (down_slice m) rs)) /\
  (arg_n_down a < 2 ->
   anti_down m = None /\
   (exists v d', forward_antis ops eng dbg rs dists_elec (m, d) =
                 (Ok [v; PyFloat (one ops)], (m, d'))) /\
   fst (forward ops eng dbg m rs d) =
   returned (anti_of ops eng (anti_up m) (up_slice m) rs) (PyFloat (one ops))) /\
  (arg_n_up a = 1 -> arg_n_down a = 1 ->
   anti_up m = None /\ anti_down m = None /\
   (exists d', forward_antis ops eng dbg rs dists_elec (m, d) =
               (Ok [PyFloat (one ops); PyFloat (one ops)], (m, d'))) /\
   fst (forward ops eng dbg m rs d) = returned (PyFloat (one ops)) (PyFloat (one ops))).
Proof.
  intros m dists_elec returned.
  assert (Hup : arg_n_up a < 2 -> anti_up m = None).
  { intros H. subst m. unfold HanNet_init, make_anti.
    destruct (Nat.ltb_spec 1 (arg_n_up a)); [lia|].
    destruct (1 <? arg_n_down a); reflexivity. }
  assert (Hdown : arg_n_down a < 2 -> anti_down m = None).
  { intros H. subst m. unfold HanNet_init, make_anti.
    destruct (Nat.ltb_spec 1 (arg_n_down a)); [lia|].
    destruct (1 <? arg_n_up a); reflexivity. }
  assert (Hfwd : fst (forward ops eng dbg m rs d) =
                 returned (anti_of ops eng (anti_up m) (up_slice m) rs)
                          (anti_of ops eng (anti_down m) (down_slice m) rs)).
  { rewrite forward_eval. reflexivity. }
  destruct (forward_antis_eval m rs d) as [d' E]. fold dists_elec in E.
  split; [|split].
  - intros H. split; [by apply Hup|]. split.
    + rewrite E, (Hup H). simpl. eauto.
    + rewrite Hfwd, (Hup H). reflexivity.
  - intros H. split; [by apply Hdown|]. split.
    + rewrite E, (Hdown H). simpl. eauto.
    + rewrite Hfwd, (Hdown H). reflexivity.
  - intros Hu Hd. split; [apply Hup; lia|]. split; [apply Hdown; lia|]. split.
    + rewrite E, Hup, Hdown by lia. simpl. eauto.
    + rewrite Hfwd, Hup, Hdown by lia. reflexivity.
Qed.

(** C5.  The constructor is a total function of its arguments.  When
    [cusp_same] (respectively [cusp_anti]) is left at [None], the model has
    no same-spin (opposite-spin) asymptotic module, the corresponding
    expression of [forward] evaluates to the float [1.0] without raising
    and without touching model or debug object, and with [cusp_anti] at
    [None] the call returns the product with that factor [1.0]. *)
Theorem unconfigured_cusp_factor_one
    (a : InitArgs Sc Net IFactory) (rs : Batch Sc) (d : St) :
  let m := fst (HanNet_init eng a) in
  let dists_elec := (fun r => pairwise_distance eng r r) <$> rs in
  (cusp_same a = None ->
   asymp_same m = None /\
   forward_asymp_same ops eng dists_elec (m, d) = (Ok (PyFloat (one ops)), (m, d)) /\
   asymp_same_of ops eng m rs = PyFloat (one ops)) /\
  (cusp_anti a = None ->
   asymp_anti m = None /\
   forward_asymp_anti ops eng dists_elec (m, d) = (Ok (PyFloat (one ops)), (m, d)) /\
   fst (forward ops eng dbg m rs d) =
   Ok (amplitude_with ops eng m rs (PyFloat (one ops)))).
Proof.
  intros m dists_elec.
  assert (Hs : asymp_same m = make_asymp (cusp_same a)).
  { subst m. unfold HanNet_init. by do 2 destruct (make_anti _ _ _). }
  assert (Ha : asymp_anti m = make_asymp (cusp_anti a)).
  { subst m. unfold HanNet_init. by do 2 destruct (make_anti _ _ _). }
  split; intros H; rewrite H in *; simpl in *.
  - split; [done|]. subst dists_elec. rewrite forward_asymp_same_eval.
    unfold asymp_same_of. by rewrite Hs.
  - split; [done|]. rewrite forward_asymp_anti_eval, forward_eval, Ha. done.
Qed.

(** C6 (the code departs from the claim).  For a model constructed with
    [cusp_anti] configured, with at least one particle in each spin group,
    [forward] does not compute the opposite-spin factor: the call raises
    [AttributeError] for the method name [flattten], on every batch. *)
Theorem forward_raises_when_cusp_anti_configured
    (a : InitArgs Sc Net IFactory) (c : Sc) (rs : Batch Sc) (d : St) :
  cusp_anti a = Some c -> 1 <= arg_n_up a -> 1 <= arg_n_down a ->
  fst (forward ops eng dbg (fst (HanNet_init eng a)) rs d) =
  Raise (AttributeError "flattten").
Proof.
  intros H _ _. rewrite forward_eval.
  assert (Ha : asymp_anti (fst (HanNet_init eng a)) = make_asymp (cusp_anti a)).
  { unfold HanNet_init. by do 2 destruct (make_anti _ _ _). }
  by rewrite Ha, H.
Qed.

(** C9.  A call of [forward] leaves the model object as it received it
    (also when the call raises), and a second call on the same batch, with
    the debug object as the first call left it, returns the same result as
    the first and again leaves the model as it was.  The forward
    computations of the sub-modules are functions of their parameters and
    inputs ([Engine]). *)
Theorem forward_leaves_model_unchanged
    (self : HanNet Sc Net IFactory) (rs : Batch Sc) (d : St) :
  let run1 := forward ops eng dbg self rs d in
  fst (snd run1) = self /\
  fst (forward ops eng dbg (fst (snd run1)) rs (snd (snd run1))) = fst run1 /\
  fst (snd (forward ops eng dbg (fst (snd run1)) rs (snd (snd run1)))) = self.
Proof.
  intros run1. subst run1.
  destruct (forward_run self rs d) as [d1 ->]. simpl.
  destruct (forward_run self rs d1) as [d2 ->]. simpl. done.
Qed.

End with_debug.

(** ** Exchange of two particles in one sample *)




Lemma getslice_fmap {A B} (f : A -> B) (s : slice) (l : list A) :
  getslice s (f <$> l) = f <$> getslice s l.
Proof.
  unfold getslice. destruct (stop s), (start s); by rewrite ?fmap_drop, ?fmap_take.
Qed.

(** The block of a group in the distance matrix is the distance matrix of
    the group. *)
Lemma block_pairwise_distance (s : slice) (r : list (Coord Sc)) :
  block s s (pairwise_distance eng r r) =
  pairwise_distance eng (getslice s r) (getslice s r).
Proof.
  unfold block, pairwise_distance.
  rewrite getslice_fmap, <- list_fmap_compose.
  apply list_fmap_ext. intros _ a _. simpl. by rewrite getslice_fmap.
Qed.

Lemma anti_sample_group (net : LaughlinAnsatz Net) (s : slice) (r : list (Coord Sc)) :
  anti_sample eng net s r =
  LaughlinAnsatz_forward eng net (getslice s r)
    (unsqueeze_last (pairwise_distance eng (getslice s r) (getslice s r))).
Proof. unfold anti_sample. by rewrite block_pairwise_distance. Qed.


Lemma triu_flat_cons (x : Coord Sc) (t us : list (Coord Sc)) :
  imap (fun i row => drop (S (S i)) row)
       ((fun a => dist eng a x :: (dist eng a <$> us)) <$> t) =
  imap (fun i row => drop (S i) row) ((fun a => dist eng a <$> us) <$> t).
Proof. rewrite !imap_fmap. by apply imap_ext. Qed.

Lemma triu_flat_pair_dists (g : list (Coord Sc)) :
  triu_flat (pairwise_distance eng g g) = pair_dists eng g.
Proof.
  induction g as [|x t IH]; [done|].
  unfold triu_flat, pairwise_distance in *. csimpl.
  rewrite drop_0. f_equal. rewrite <- IH. f_equal.
  apply (triu_flat_cons x t t).
Qed.



Section one_sample.

Context (self : HanNet Sc Net IFactory) (i j : nat) (r : list (Coord Sc)).





Lemma length_up_group : length (getslice (up_slice self) r) = n_up self `min` length r.
Proof. unfold getslice, up_slice; simpl. apply length_take. Qed.

Lemma length_down_group : length (getslice (down_slice self) r) = length r - n_up self.
Proof. unfold getslice, down_slice; simpl. apply length_drop. Qed.







End one_sample.

(** ** Sign and entries of a product of factors *)





Lemma val_at_bmul (u v : Val Sc) (b : nat) (x y : Sc) :
  val_at u b = Some x -> val_at v b = Some y ->
  val_at (bmul ops u v) b = Some (mul ops x y).
Proof.
  destruct u as [x'|xs], v as [y'|ys]; unfold bmul; simpl.
  - by intros [= ->] [= ->].
  - intros [= ->] Hy. by rewrite list_lookup_fmap, Hy.
  - intros Hx [= ->]. by rewrite list_lookup_fmap, Hx.
  - intros Hx Hy. by rewrite lookup_zip_with, Hx; simpl; rewrite Hy.
Qed.

Lemma val_at_Tensor_fmap {A} (f : A -> Sc) (l : list A) (b : nat) (x : A) :
  l !! b = Some x -> val_at (Tensor (f <$> l)) b = Some (f x).
Proof. intros H. simpl. by rewrite list_lookup_fmap, H. Qed.

(** ** Models built by the constructor *)


(** ** Exchange of two particles in every sample of a batch *)





(** ** Two particles of one spin group at the same point *)

Lemma val_at_anti_of (net : option (LaughlinAnsatz Net)) (s : slice) (rs : Batch Sc) b r :
  rs !! b = Some r ->
  val_at (anti_of ops eng net s rs) b =
  Some (match net with Some net => anti_sample eng net s r | None => one ops end).
Proof.
  intros Hb. destruct net as [net|]; [|done]. by apply val_at_Tensor_fmap.
Qed.



Section exchange_and_coincidence.

Context {St : Type} (dbg : DebugOps Sc St).



End exchange_and_coincidence.

(** C7.  For every model, batch, implementation of the debug interface
    and state of the debug object, [forward] returns the same result
    (amplitudes or exception) with that debug object as with
    [NULL_DEBUG]. *)
Theorem forward_result_independent_of_debug
    {St : Type} (dbg : DebugOps Sc St) (self : HanNet Sc Net IFactory)
    (rs : Batch Sc) (d : St) :
  fst (forward ops eng dbg self rs d) =
  fst (forward ops eng (NULL_DEBUG_ops Sc) self rs NULL_DEBUG).
Proof. by rewrite !forward_eval. Qed.

(** C8.  For every constructed model, [tracked_parameters] is the list
    with the entry ['ion_pot'] (the ionization potential given to the
    nuclear asymptotic), then ['cusp_same'] exactly when [cusp_same] was
    configured, then ['cusp_anti'] exactly when [cusp_anti] was
    configured, each with the configured value, and nothing else. *)
Theorem tracked_parameters_entries (a : InitArgs Sc Net IFactory) :
  let params := tracked_parameters (fst (HanNet_init eng a)) in
  params =
    [("ion_pot", ion_pot a)]
    ++ match cusp_same a with Some c => [("cusp_same", c)] | None => [] end
    ++ match cusp_anti a with Some c => [("cusp_anti", c)] | None => [] end
  /\ "ion_pot" ∈ fst <$> params
  /\ ("cusp_same" ∈ fst <$> params <-> is_Some (cusp_same a))
  /\ ("cusp_anti" ∈ fst <$> params <-> is_Some (cusp_anti a))
  /\ Forall (fun name => name = "ion_pot" \/ name = "cusp_same" \/ name = "cusp_anti")
        (fst <$> params).
Proof.
  intros params.
  assert (E : params =
    [("ion_pot", ion_pot a)]
    ++ match cusp_same a with Some c => [("cusp_same", c)] | None => [] end
    ++ match cusp_anti a with Some c => [("cusp_anti", c)] | None => [] end).
  { subst params. unfold HanNet_init, tracked_parameters.
    do 2 destruct (make_anti _ _ _). simpl.
    destruct (cusp_same a), (cusp_anti a); reflexivity. }
  split; [exact E|]. rewrite E. clear E params.
  destruct (cusp_same a), (cusp_anti a); simpl.
  all: rewrite ?Forall_cons, ?Forall_nil, ?elem_of_cons, ?elem_of_nil, ?is_Some_alt.
  all: intuition (discriminate || eauto).
Qed.

(** C10.  When a spin group has at least two particles, the pair network
    of its antisymmetrization module is the result of the pair factory at
    the arguments [(7, latent_dim)]: of the user's factory when one is
    passed, and otherwise of the default one, which is
    [get_log_dnn(7, latent_dim, SSP, n_layers=2, last_bias=False)].  Every
    call the constructor makes to the pair factory has these arguments, and
    it makes one when some group has two particles or more. *)
Theorem pair_network_input_dimension_seven (a : InitArgs Sc Net IFactory) :
  let m := fst (HanNet_init eng a) in
  let calls := snd (HanNet_init eng a) in
  let pair_net :=
    match pair_factory a with
    | Some f => f 7 (latent_dim a)
    | None => get_log_dnn eng 7 (latent_dim a) SSP 2 (Some false)
    end in
  (2 <= arg_n_up a ->
   exists net, anti_up m = Some net /\ la_pair net = Concat pair_net) /\
  (2 <= arg_n_down a ->
   exists net, anti_down m = Some net /\ la_pair net = Concat pair_net) /\
  Forall (fun c => forall i l, c = PairCall i l -> i = 7 /\ l = latent_dim a) calls /\
  (2 <= arg_n_up a \/ 2 <= arg_n_down a -> PairCall 7 (latent_dim a) ∈ calls).
Proof.
  intros m calls pair_net. subst m calls.
  assert (Hp : the_pair_factory eng a 7 (latent_dim a) = pair_net).
  { subst pair_net. unfold the_pair_factory, default_pair_factory.
    by destruct (pair_factory a). }
  unfold HanNet_init, make_anti. rewrite Hp.
  destruct (Nat.ltb_spec 1 (arg_n_up a)), (Nat.ltb_spec 1 (arg_n_down a)); simpl.
  all: repeat split; try (intros; lia); try (intros; eauto).
  all: rewrite ?Forall_cons, ?Forall_nil, ?elem_of_cons, ?elem_of_nil.
  all: try (intuition (try discriminate; try lia; eauto); congruence).
  all: try (destruct H1; [lia|lia]).
Qed.

End HanNet_properties.

(** * The integer engine meets the contracts *)








(** * Concrete runs *)

Example forward_args_2_1_batch_3 :
  fst (forward Zops Zeng Recorder (fst (HanNet_init Zeng args_2_1)) batch_3 ([], [])) =
  Ok (Tensor [-351843720888320]%Z).
Proof. vm_compute. reflexivity. Qed.

(** With [cusp_anti] configured the run ends in the exception; the values
    recorded before it are in the debug object. *)
Example forward_args_cusps_batch_2 :
  forward Zops Zeng Recorder (fst (HanNet_init Zeng args_cusps)) batch_2 ([], []) =
  (Raise (AttributeError "flattten"),
   (fst (HanNet_init Zeng args_cusps),
    ([], [("asymp_same", Tensor [4; 4]); ("asymp_nuc", Tensor [7; 15]);
          ("jastrow", Tensor [10; 24]); ("schnet.x", Tensor [3; 7; 9; 15])])))%Z.
Proof. vm_compute. reflexivity. Qed.



Lemma absent_anti_module_factor_one_witness :
  let m := fst (HanNet_init Zeng args_1_1) in
  arg_n_up args_1_1 = 1 /\ arg_n_down args_1_1 = 1 /\
  anti_up m = None /\ anti_down m = None /\
  fst (forward Zops Zeng Recorder m batch_2 ([], [])) =
  Ok (bmul Zops
        (bmul Zops (bmul Zops (PyFloat 1%Z) (PyFloat 1%Z))
           (Tensor (exp Zops <$> jastrow_of Zops Zeng m batch_2)))
        (bmul Zops (bmul Zops (asymp_nuc_of Zeng m batch_2) (asymp_same_of Zops Zeng m batch_2))
           (PyFloat 1%Z))).
Proof.
  intros m.
  destruct (absent_anti_module_factor_one Zops Zeng Recorder args_1_1 batch_2 ([], []))
    as (_ & _ & H).
  destruct (H eq_refl eq_refl) as (Hup & Hdown & _ & Hfwd).
  split; [reflexivity|]. split; [reflexivity|].
  split; [exact Hup|]. split; [exact Hdown|exact Hfwd].
Defined.

Lemma unconfigured_cusp_factor_one_witness :
  let m := fst (HanNet_init Zeng args_2_1) in
  cusp_same args_2_1 = None /\ cusp_anti args_2_1 = None /\
  asymp_same m = None /\ asymp_anti m = None /\
  asymp_same_of Zops Zeng m batch_3 = PyFloat 1%Z /\
  fst (forward Zops Zeng Recorder m batch_3 ([], [])) =
  Ok (amplitude_with Zops Zeng m batch_3 (PyFloat 1%Z)).
Proof.
  intros m.
  destruct (unconfigured_cusp_factor_one Zops Zeng Recorder args_2_1 batch_3 ([], []))
    as (Hsame & Hanti).
  destruct (Hsame eq_refl) as (Hs & _ & Hv).
  destruct (Hanti eq_refl) as (Ha & _ & Hfwd).
  split; [reflexivity|]. split; [reflexivity|].
  split; [exact Hs|]. split; [exact Ha|]. split; [exact Hv|exact Hfwd].
Defined.

Lemma forward_raises_when_cusp_anti_configured_witness :
  cusp_anti args_cusps = Some 5%Z /\ 1 <= arg_n_up args_cusps /\ 1 <= arg_n_down args_cusps /\
  fst (forward Zops Zeng Recorder (fst (HanNet_init Zeng args_cusps)) batch_2 ([], [])) =
  Raise (AttributeError "flattten").
Proof.
  split; [reflexivity|]. split; [simpl; lia|]. split; [simpl; lia|].
  apply (forward_raises_when_cusp_anti_configured Zops Zeng Recorder args_cusps 5%Z);
    [reflexivity|simpl; lia|simpl; lia].
Defined.

Lemma pair_network_input_dimension_seven_witness :
  2 <= arg_n_up args_2_1 /\
  (exists net, anti_up (fst (HanNet_init Zeng args_2_1)) = Some net /\
               la_pair net = Concat (LogDNN 7 10 SSP 2 (Some false))) /\
  PairCall 7 10 ∈ snd (HanNet_init Zeng args_2_1).
Proof.
  destruct (pair_network_input_dimension_seven Zeng args_2_1) as (Hup & _ & _ & Hcall).
  assert (H2 : 2 <= arg_n_up args_2_1) by (simpl; lia).
  split; [exact H2|]. split; [exact (Hup H2)|]. apply Hcall. left. exact H2.
Defined.

(** * Further properties of the constructor and of [forward] *)

Section HanNet_more_properties.

Context {Sc Net IFactory Feat Emb : Type}.
Context (ops : ScalarOps Sc) (eng : Engine Sc Net IFactory Feat Emb).

Section debug_trace.

Context {St : Type} (dbg : DebugOps Sc St).

Lemma replay_app (e1 e2 : list (DebugEvent Sc)) (d : St) :
  replay dbg (e1 ++ e2) d = replay dbg e2 (replay dbg e1 d).
Proof. unfold replay. apply fold_left_app. Qed.

Lemma forward_antis_trace (self : HanNet Sc Net IFactory) (rs : Batch Sc) (d : St) :
  forward_antis ops eng dbg rs ((fun r => pairwise_distance eng r r) <$> rs) (self, d) =
  (Ok [anti_of ops eng (anti_up self) (up_slice self) rs;
       anti_of ops eng (anti_down self) (down_slice self) rs],
   (self, replay dbg (anti_trace eng "anti_up" (anti_up self) (up_slice self) rs
                      ++ anti_trace eng "anti_down" (anti_down self) (down_slice self) rs) d)).
Proof.
  rewrite replay_app.
  unfold forward_antis, bind, attr, anti_of, anti_sample, anti_trace. simpl.
  destruct (anti_up self) as [up|], (anti_down self) as [down|]; simpl.
  all: unfold with_cd, bind, call_anti, ret; simpl.
  all: rewrite <- ?list_fmap_compose, ?zip_with_fmap_both, ?replay_app; reflexivity.
Qed.

Lemma forward_state_replay (self : HanNet Sc Net IFactory) (rs : Batch Sc) (d : St) :
  snd (snd (forward ops eng dbg self rs d)) = replay dbg (forward_trace ops eng self rs) d.
Proof.
  unfold forward, forward_body.
  do 3 (unfold bind at 1; unfold attr at 1; simpl).
  unfold bind at 1; unfold with_cd, call_schnet; simpl.
  unfold bind at 1; unfold attr at 1; simpl.
  unfold bind at 1; unfold debug_setitem at 1; simpl.
  unfold bind at 1. rewrite forward_antis_trace.
  unfold bind at 1; unfold attr at 1; simpl.
  unfold bind at 1; unfold debug_setitem at 1; simpl.
  unfold bind at 1. rewrite forward_asymp_same_eval.
  unfold bind at 1. unfold debug_setitem at 1. simpl.
  unfold bind at 1. rewrite forward_asymp_anti_eval.
  unfold forward_trace.
  change (EvEnter "schnet" :: ?l) with ([EvEnter (Sc:=Sc) "schnet"] ++ l).
  rewrite !replay_app.
  assert (Hf : (fun D : Matrix Sc =>
                  (fun row : list Sc => DistanceBasis_forward eng (dist_basis self) <$> row) <$> D)
               <$> zip_with (zip_with app) ((fun r => pairwise_distance eng r r) <$> rs)
                     ((fun r => pairwise_distance eng r (coords self)) <$> rs)
               = features_of eng self <$> rs).
  { unfold features_of. by rewrite zip_with_fmap_both, <- list_fmap_compose. }
  rewrite Hf.
  assert (Hj : (fun x => ssum ops (orbital_forward eng (orbital self) <$> x)) <$>
               (ElectronicSchnet_forward eng (schnet self) <$> (features_of eng self <$> rs))
               = jastrow_of ops eng self rs).
  { unfold jastrow_of, embeddings_of. by rewrite <- !list_fmap_compose. }
  rewrite Hj.
  assert (Hn : Tensor (NuclearAsymptotic_forward eng (asymp_nuc self) <$>
                 ((fun r => pairwise_distance eng r (coords self)) <$> rs))
               = asymp_nuc_of eng self rs).
  { unfold asymp_nuc_of. by rewrite <- list_fmap_compose. }
  rewrite Hn.
  destruct (asymp_anti self) as [net|]; unfold bind, debug_setitem, ret, replay; simpl.
  all: rewrite ?fold_left_app; reflexivity.
Qed.

(** X1.  The debug object after a call of [forward] is the debug object
    before it with the operations of [forward_trace] applied in order:
    the scope [schnet] around what the embedding network records, then
    [jastrow], the scope of each present antisymmetrization module around
    what it records, [asymp_nuc], [asymp_same], and [asymp_anti] only when
    the opposite-spin module is absent, that is, only when the call
    returns. *)
Theorem forward_debug_trace (self : HanNet Sc Net IFactory) (rs : Batch Sc) (d : St) :
  forward ops eng dbg self rs d =
  (match asymp_anti self with
   | Some _ => Raise (AttributeError "flattten")
   | None => Ok (amplitude_with ops eng self rs (PyFloat (one ops)))
   end,
   (self, replay dbg (forward_trace ops eng self rs) d)).
Proof.
  rewrite <- forward_state_replay.
  destruct (forward_run ops eng dbg self rs d) as [d' ->]. reflexivity.
Qed.

End debug_trace.

(** X2.  [forward] leaves the stack of open debug scopes as it found it,
    whether it returns or raises, provided that what the embedding network
    and the antisymmetrization modules do with the debug object leaves the
    stack as they found it. *)
Theorem forward_restores_scopes
    (self : HanNet Sc Net IFactory) (rs : Batch Sc) (st : list string) :
  (forall F st', replay ScopeTracker (ElectronicSchnet_trace eng (schnet self) F) st' = st') ->
  (forall net g D st', replay ScopeTracker (LaughlinAnsatz_trace eng net g D) st' = st') ->
  snd (snd (forward ops eng ScopeTracker self rs st)) = st.
Proof.
  intros Hs Ha. rewrite forward_state_replay. unfold forward_trace.
  change (EvEnter "schnet" :: ?l) with ([EvEnter (Sc:=Sc) "schnet"] ++ l).
  rewrite !replay_app, Hs.
  assert (Hanti : forall label net idxs st',
             replay ScopeTracker (anti_trace eng label net idxs rs) st' = st').
  { intros label [net|] idxs st'; [|reflexivity]. unfold anti_trace.
    change (EvEnter label :: ?l) with ([EvEnter (Sc:=Sc) label] ++ l).
    rewrite !replay_app, Ha. reflexivity. }
  rewrite !Hanti. destruct (asymp_anti self); reflexivity.
Qed.

Section entries.

Context {St : Type} (dbg : DebugOps Sc St).

(** X3.  When the opposite-spin module is absent, the entry of the
    returned tensor for sample [b] is computed from that sample alone: it
    is the product, grouped as in line 141, of the sample's antisymmetric
    factors, the exponential of its Jastrow sum, and its asymptotic
    factors, with [1.0] for each absent module. *)
Theorem forward_entry_of_sample
    (self : HanNet Sc Net IFactory) (rs : Batch Sc) (b : nat) (r : Sample Sc) (d : St) :
  asymp_anti self = None -> rs !! b = Some r ->
  exists v,
    fst (forward ops eng dbg self rs d) = Ok v /\
    val_at v b =
    Some (mul ops
            (mul ops
               (mul ops (anti_entry ops eng (anti_up self) (up_slice self) r)
                        (anti_entry ops eng (anti_down self) (down_slice self) r))
               (exp ops (jastrow_entry ops eng self r)))
            (mul ops
               (mul ops (asymp_nuc_entry eng self r) (asymp_same_entry ops eng self r))
               (one ops))).
Proof.
  intros Hanti Hb. rewrite forward_eval, Hanti. eexists. split; [reflexivity|].
  unfold amplitude_with.
  apply val_at_bmul; [apply val_at_bmul; [apply val_at_bmul|]|apply val_at_bmul;
                      [apply val_at_bmul|reflexivity]].
  - by apply val_at_anti_of.
  - by apply val_at_anti_of.
  - unfold jastrow_of, jastrow_entry. simpl.
    by rewrite !list_lookup_fmap, Hb.
  - unfold asymp_nuc_of, asymp_nuc_entry. simpl. by rewrite list_lookup_fmap, Hb.
  - unfold asymp_same_of, asymp_same_entry.
    destruct (asymp_same self); simpl; [by rewrite list_lookup_fmap, Hb|reflexivity].
Qed.

Lemma bmul_broadcasts (n : nat) (u v : Val Sc) :
  broadcasts_to n u -> broadcasts_to n v -> broadcasts_to n (bmul ops u v).
Proof.
  destruct u as [x|xs], v as [y|ys]; unfold bmul; simpl; intros Hu Hv; try done.
  - by rewrite length_fmap.
  - by rewrite length_fmap.
  - rewrite length_zip_with. lia.
Qed.

Lemma bmul_tensor_l (n : nat) (xs : list Sc) (v : Val Sc) :
  length xs = n -> broadcasts_to n v ->
  exists zs, bmul ops (Tensor xs) v = Tensor zs /\ length zs = n.
Proof.
  intros Hx Hv. destruct v as [y|ys]; unfold bmul; simpl in *; eexists; split; try done.
  - by rewrite length_fmap.
  - rewrite length_zip_with. lia.
Qed.

Lemma bmul_tensor_r (n : nat) (u : Val Sc) (ys : list Sc) :
  broadcasts_to n u -> length ys = n ->
  exists zs, bmul ops u (Tensor ys) = Tensor zs /\ length zs = n.
Proof.
  intros Hu Hy. destruct u as [x|xs]; unfold bmul; simpl in *; eexists; split; try done.
  - by rewrite length_fmap.
  - rewrite length_zip_with. lia.
Qed.

Lemma anti_of_broadcasts (net : option (LaughlinAnsatz Net)) (s : slice) (rs : Batch Sc) :
  broadcasts_to (length rs) (anti_of ops eng net s rs).
Proof. destruct net; simpl; [by rewrite length_fmap|done]. Qed.

(** X4.  When the opposite-spin module is absent, [forward] returns a
    tensor, never a bare float, with exactly one entry per sample of the
    batch, whichever of the optional modules are present; for the empty
    batch it returns the empty tensor. *)
Theorem forward_returns_one_entry_per_sample
    (self : HanNet Sc Net IFactory) (rs : Batch Sc) (d : St) :
  asymp_anti self = None ->
  exists xs, fst (forward ops eng dbg self rs d) = Ok (Tensor xs) /\ length xs = length rs.
Proof.
  intros Hanti. rewrite forward_eval, Hanti. unfold amplitude_with.
  pose proof (bmul_broadcasts (length rs) _ _
                (anti_of_broadcasts (anti_up self) (up_slice self) rs)
                (anti_of_broadcasts (anti_down self) (down_slice self) rs)) as Hab.
  destruct (bmul_tensor_r (length rs) _ (exp ops <$> jastrow_of ops eng self rs) Hab)
    as (es & -> & Hes).
  { unfold jastrow_of. by rewrite !length_fmap. }
  assert (Hasy : broadcasts_to (length rs)
            (bmul ops (bmul ops (asymp_nuc_of eng self rs) (asymp_same_of ops eng self rs))
               (PyFloat (one ops)))).
  { apply bmul_broadcasts; [apply bmul_broadcasts|done].
    - unfold asymp_nuc_of. simpl. by rewrite length_fmap.
    - unfold asymp_same_of. destruct (asymp_same self); simpl; [by rewrite length_fmap|done]. }
  destruct (bmul_tensor_l (length rs) es _ Hes Hasy) as (zs & -> & Hzs).
  eauto.
Qed.

End entries.

(** X5.  The antisymmetric factor of a spin group is a function of that
    group's coordinates alone: two batches that agree on the first [n_up]
    particles of every sample have the same [anti_up], and two batches
    that agree on the particles from [n_up] on have the same
    [anti_down]. *)
Theorem anti_factor_of_own_group
    (self : HanNet Sc Net IFactory) (rs rs' : Batch Sc) :
  (take (n_up self) <$> rs = take (n_up self) <$> rs' ->
   anti_of ops eng (anti_up self) (up_slice self) rs =
   anti_of ops eng (anti_up self) (up_slice self) rs') /\
  (drop (n_up self) <$> rs = drop (n_up self) <$> rs' ->
   anti_of ops eng (anti_down self) (down_slice self) rs =
   anti_of ops eng (anti_down self) (down_slice self) rs').
Proof.
  assert (H : forall net s,
             getslice s <$> rs = getslice s <$> rs' ->
             anti_of ops eng net s rs = anti_of ops eng net s rs').
  { intros [net|] s Hs; simpl; [|done]. f_equal.
    transitivity ((fun g => LaughlinAnsatz_forward eng net g
                              (unsqueeze_last (pairwise_distance eng g g)))
                  <$> (getslice s <$> rs)).
    - rewrite <- list_fmap_compose. apply list_fmap_ext. intros _ r _.
      apply anti_sample_group.
    - rewrite Hs, <- list_fmap_compose. apply list_fmap_ext. intros _ r _.
      symmetry. apply anti_sample_group. }
  split; intros Hs; apply H; exact Hs.
Qed.

(** ** Distance-preserving maps *)

Lemma pairwise_distance_isometry (phi : Coord Sc -> Coord Sc) (A B : list (Coord Sc)) :
  distance_preserving eng phi ->
  pairwise_distance eng (phi <$> A) (phi <$> B) = pairwise_distance eng A B.
Proof.
  intros Hphi. unfold pairwise_distance. rewrite <- list_fmap_compose.
  apply list_fmap_ext. intros _ a _. simpl. rewrite <- list_fmap_compose.
  apply list_fmap_ext. intros _ b _. simpl. apply Hphi.
Qed.

Lemma HanNet_init_with_geom (a : InitArgs Sc Net IFactory) (f : Coord Sc -> Coord Sc) :
  let m := fst (HanNet_init eng a) in
  let m' := fst (HanNet_init eng (with_geom a ((fun nc => (f nc.1, nc.2)) <$> geom a))) in
  n_up m' = n_up m /\ coords m' = f <$> coords m /\ dist_basis m' = dist_basis m /\
  asymp_nuc m' = asymp_nuc m /\ asymp_same m' = asymp_same m /\
  asymp_anti m' = asymp_anti m /\ schnet m' = schnet m /\ orbital m' = orbital m /\
  anti_up m' = anti_up m /\ anti_down m' = anti_down m.
Proof.
  unfold HanNet_init, make_anti, with_geom, the_pair_factory, the_odd_factory,
    the_orbital_factory, default_orbital_factory. simpl.
  destruct (1 <? arg_n_up a), (1 <? arg_n_down a); simpl.
  all: rewrite <- !list_fmap_compose, length_fmap; repeat split.
Qed.

Section isometry.

Context {St : Type} (dbg : DebugOps Sc St).

(** X6.  When all particles and all nuclei are moved by a map that keeps
    distances (a translation, a rotation), the amplitude can change only
    through the antisymmetrization modules, which alone are handed
    coordinates: if the two antisymmetric factors are the same on the
    moved batch, [forward] of the model built on the moved geometry
    returns on the moved batch what the original model returns on the
    original batch.  In particular a model with fewer than two particles
    in each spin group is invariant. *)
Theorem forward_invariant_under_isometry
    (a : InitArgs Sc Net IFactory) (phi : Coord Sc -> Coord Sc) (rs : Batch Sc) (d d' : St) :
  distance_preserving eng phi ->
  let m := fst (HanNet_init eng a) in
  let m' := fst (HanNet_init eng (with_geom a ((fun nc => (phi nc.1, nc.2)) <$> geom a))) in
  let rs' := (fun r : Sample Sc => phi <$> r) <$> rs in
  (anti_of ops eng (anti_up m) (up_slice m) rs' = anti_of ops eng (anti_up m) (up_slice m) rs ->
   anti_of ops eng (anti_down m) (down_slice m) rs' =
     anti_of ops eng (anti_down m) (down_slice m) rs ->
   fst (forward ops eng dbg m' rs' d') = fst (forward ops eng dbg m rs d)) /\
  (arg_n_up a < 2 -> arg_n_down a < 2 ->
   fst (forward ops eng dbg m' rs' d') = fst (forward ops eng dbg m rs d)).
Proof.
  intros Hphi m m' rs'.
  destruct (HanNet_init_with_geom a phi)
    as (Hn & Hc & Hdb & Hnuc & Hsame & Hanti & Hsch & Horb & Hau & Had).
  fold m m' in Hn, Hc, Hdb, Hnuc, Hsame, Hanti, Hsch, Horb, Hau, Had.
  assert (Hmain :
    anti_of ops eng (anti_up m) (up_slice m) rs' = anti_of ops eng (anti_up m) (up_slice m) rs ->
    anti_of ops eng (anti_down m) (down_slice m) rs' =
      anti_of ops eng (anti_down m) (down_slice m) rs ->
    fst (forward ops eng dbg m' rs' d') = fst (forward ops eng dbg m rs d)).
  { intros Hup Hdown. rewrite !forward_eval, Hanti.
    destruct (asymp_anti m); [reflexivity|]. f_equal.
    unfold amplitude_with, up_slice, down_slice in *. rewrite Hau, Had, Hn, Hup, Hdown.
    assert (Hj : jastrow_of ops eng m' rs' = jastrow_of ops eng m rs).
    { unfold jastrow_of, embeddings_of, features_of. subst rs'.
      rewrite Hc, Hdb, Hsch, Horb, <- list_fmap_compose.
      apply list_fmap_ext. intros _ r _. simpl.
      by rewrite !pairwise_distance_isometry. }
    assert (Hnu : asymp_nuc_of eng m' rs' = asymp_nuc_of eng m rs).
    { unfold asymp_nuc_of. subst rs'. rewrite Hc, Hnuc, <- list_fmap_compose.
      f_equal. apply list_fmap_ext. intros _ r _. simpl.
      by rewrite pairwise_distance_isometry. }
    assert (Hs : asymp_same_of ops eng m' rs' = asymp_same_of ops eng m rs).
    { unfold asymp_same_of, same_spin_dists, up_slice, down_slice. subst rs'.
      rewrite Hsame, Hn. destruct (asymp_same m); [|done].
      rewrite <- list_fmap_compose. f_equal. apply list_fmap_ext. intros _ r _. simpl.
      by rewrite pairwise_distance_isometry. }
    by rewrite Hj, Hnu, Hs. }
  split; [exact Hmain|]. intros Hu Hd. apply Hmain.
  - assert (anti_up m = None) as ->; [|reflexivity].
    subst m. unfold HanNet_init, make_anti.
    destruct (Nat.ltb_spec 1 (arg_n_up a)); [lia|]. by destruct (1 <? arg_n_down a).
  - assert (anti_down m = None) as ->; [|reflexivity].
    subst m. unfold HanNet_init, make_anti.
    destruct (Nat.ltb_spec 1 (arg_n_down a)); [lia|]. by destruct (1 <? arg_n_up a).
Qed.

End isometry.

(** ** The options bag and the shapes handed to the sub-modules *)

(** X8.  An entry of [**kwargs] whose key is neither ['cutoff'] nor
    ['alpha'] has no effect: the constructor builds the same model and
    makes the same factory calls with and without it, wherever it stands in
    the bag. *)
Theorem HanNet_init_ignores_other_kwargs
    (a : InitArgs Sc Net IFactory) (kw1 kw2 : list (string * Sc)) (k : string) (v : Sc) :
  k <> "cutoff" -> k <> "alpha" ->
  HanNet_init eng (with_kwargs a (kw1 ++ (k, v) :: kw2)) =
  HanNet_init eng (with_kwargs a (kw1 ++ kw2)).
Proof.
  intros Hc Ha.
  assert (Hsel : forall key, k <> key ->
            dctsel (kw1 ++ (k, v) :: kw2) [key] = dctsel (kw1 ++ kw2) [key] :> list (string * Sc)).
  { intros key Hk. unfold dctsel. rewrite !filter_app, filter_cons_False; [done|].
    simpl. rewrite list_elem_of_singleton. done. }
  unfold HanNet_init, make_anti, with_kwargs, the_pair_factory, the_odd_factory,
    the_orbital_factory, default_orbital_factory. simpl.
  rewrite !Hsel by done. reflexivity.
Qed.

Lemma length_features_of (self : HanNet Sc Net IFactory) (r : Sample Sc) :
  length (features_of eng self r) = length r /\
  Forall (fun row => length row = length r + length (coords self)) (features_of eng self r).
Proof.
  unfold features_of, pairwise_distance. rewrite zip_with_fmap_both, <- list_fmap_compose.
  split; [by rewrite length_fmap|].
  apply Forall_fmap, Forall_forall. intros c _. simpl.
  by rewrite length_fmap, length_app, !length_fmap.
Qed.

(** X9.  For a constructed model and a sample of [n_up + n_down]
    particles, the feature matrix that [forward] hands to the embedding
    network has the shape the network was constructed for: one row for
    each of the [n_up + n_down] particles, and in each row one entry for
    each particle and each of the [len(geom)] nuclei. *)
Theorem schnet_input_shape (a : InitArgs Sc Net IFactory) (r : Sample Sc) :
  length r = arg_n_up a + arg_n_down a ->
  let m := fst (HanNet_init eng a) in
  let net := schnet m in
  length (features_of eng m r) = sn_n_up _ net + sn_n_down _ net /\
  Forall (fun row => length row = sn_n_up _ net + sn_n_down _ net + sn_n_nuclei _ net)
    (features_of eng m r).
Proof.
  intros Hr m net.
  destruct (length_features_of m r) as [Hrows Hcols].
  assert (Hnet : sn_n_up _ net = arg_n_up a /\ sn_n_down _ net = arg_n_down a /\
                 sn_n_nuclei _ net = length (coords m)).
  { subst net m. unfold HanNet_init, make_anti.
    destruct (1 <? arg_n_up a), (1 <? arg_n_down a); simpl; by rewrite length_fmap. }
  destruct Hnet as (-> & -> & ->). rewrite <- Hr. done.
Qed.

Lemma length_pair_dists (g : list (Coord Sc)) :
  2 * length (pair_dists eng g) = length g * (length g - 1).
Proof.
  induction g as [|x t IH]; [done|]. simpl.
  rewrite length_app, length_fmap. rewrite Nat.sub_0_r. nia.
Qed.

(** X10.  For a constructed model and a sample of [n_up + n_down]
    particles, the same-spin asymptotic module is handed one distance for
    each unordered pair of particles of one spin group:
    [n_up (n_up - 1) / 2 + n_down (n_down - 1) / 2] distances, none when
    each group has at most one particle. *)
Theorem same_spin_dists_count (a : InitArgs Sc Net IFactory) (r : Sample Sc) :
  length r = arg_n_up a + arg_n_down a ->
  let m := fst (HanNet_init eng a) in
  2 * length (same_spin_dists eng m r) =
    arg_n_up a * (arg_n_up a - 1) + arg_n_down a * (arg_n_down a - 1) /\
  (arg_n_up a <= 1 -> arg_n_down a <= 1 -> same_spin_dists eng m r = []).
Proof.
  intros Hr m.
  assert (Hn : n_up m = arg_n_up a).
  { subst m. unfold HanNet_init, make_anti.
    by destruct (1 <? arg_n_up a), (1 <? arg_n_down a). }
  assert (Hlen : 2 * length (same_spin_dists eng m r) =
                 arg_n_up a * (arg_n_up a - 1) + arg_n_down a * (arg_n_down a - 1)).
  { unfold same_spin_dists.
    rewrite !block_pairwise_distance, !triu_flat_pair_dists, length_app.
    pose proof (length_pair_dists (getslice (up_slice m) r)) as Hu.
    pose proof (length_pair_dists (getslice (down_slice m) r)) as Hd.
    rewrite length_up_group in Hu. rewrite length_down_group in Hd.
    rewrite Hn, Hr in Hu, Hd.
    replace (arg_n_up a `min` (arg_n_up a + arg_n_down a)) with (arg_n_up a) in Hu by lia.
    replace (arg_n_up a + arg_n_down a - arg_n_up a) with (arg_n_down a) in Hd by lia.
    lia. }
  split; [exact Hlen|]. intros Hu Hd.
  apply length_zero_iff_nil. nia.
Qed.

(** ** Parameters, factory calls, and one sample of a batch *)

(** X11.  For every model, also one whose parameters an optimizer has
    changed since construction, the names that [tracked_parameters] returns
    are pairwise distinct, the first is ['ion_pot'] with the current
    ionization potential of the nuclear asymptotic module, there are
    between one and three of them, and a cusp name is listed with the
    current cusp of its module. *)
Theorem tracked_parameters_names_distinct (self : HanNet Sc Net IFactory) :
  let params := tracked_parameters self in
  NoDup (fst <$> params) /\
  head params = Some ("ion_pot", ion_potential (asymp_nuc self)) /\
  1 <= length params <= 3 /\
  (forall net, asymp_same self = Some net -> ("cusp_same", cusp net) ∈ params) /\
  (forall net, asymp_anti self = Some net -> ("cusp_anti", cusp net) ∈ params).
Proof.
  unfold tracked_parameters.
  destruct (asymp_same self) as [s1|], (asymp_anti self) as [s2|]; simpl.
  all: repeat split; try lia.
  all: try (intros net [= <-]); try (intros net [=]).
  all: rewrite ?NoDup_cons, ?elem_of_cons, ?elem_of_nil.
  all: try (intuition (discriminate || eauto using NoDup_nil_2)).
Qed.





Section one_sample_of_a_batch.

Context {St : Type} (dbg : DebugOps Sc St).


End one_sample_of_a_batch.

End HanNet_more_properties.

(** * Concrete runs of the further properties *)

Lemma Zeng_shift_distance_preserving (v : Coord Z) : distance_preserving Zeng (shift_Z v).
Proof. intros a b. simpl. f_equal. lia. Qed.

Lemma forward_restores_scopes_witness :
  snd (snd (forward Zops Zeng ScopeTracker (fst (HanNet_init Zeng args_2_1)) batch_3_3
              ["outer"])) = ["outer"].
Proof.
  apply (forward_restores_scopes Zops Zeng (fst (HanNet_init Zeng args_2_1)) batch_3_3
           ["outer"]).
  - intros F st'. reflexivity.
  - intros net g D st'. reflexivity.
Defined.

Lemma forward_entry_of_sample_witness :
  exists v,
    fst (forward Zops Zeng Recorder (fst (HanNet_init Zeng args_2_1)) batch_3_3 ([], [])) = Ok v /\
    val_at v 0 = Some (-351843720888320)%Z.
Proof.
  destruct (forward_entry_of_sample Zops Zeng Recorder (fst (HanNet_init Zeng args_2_1))
              batch_3_3 0 [(1, 0, 0); (3, 0, 0); (7, 0, 0)]%Z ([], []))
    as (v & Hv & Hat); [reflexivity|reflexivity|].
  exists v. split; [exact Hv|]. rewrite Hat. vm_compute. reflexivity.
Defined.

Lemma forward_returns_one_entry_per_sample_witness :
  exists xs,
    fst (forward Zops Zeng Recorder (fst (HanNet_init Zeng args_1_1)) batch_2 ([], [])) =
      Ok (Tensor xs) /\
    length xs = 2.
Proof.
  apply (forward_returns_one_entry_per_sample Zops Zeng Recorder
           (fst (HanNet_init Zeng args_1_1)) batch_2 ([], [])).
  reflexivity.
Defined.

Lemma anti_factor_of_own_group_witness :
  let m := fst (HanNet_init Zeng args_2_1) in
  anti_of Zops Zeng (anti_up m) (up_slice m) batch_3 =
  anti_of Zops Zeng (anti_up m) (up_slice m) [[(1, 0, 0); (3, 0, 0); (9, 9, 9)]]%Z.
Proof.
  intros m.
  apply (anti_factor_of_own_group Zops Zeng m batch_3 [[(1, 0, 0); (3, 0, 0); (9, 9, 9)]]%Z).
  reflexivity.
Defined.

Lemma forward_invariant_under_isometry_witness :
  let phi := shift_Z (1, 2, 3)%Z in
  let m := fst (HanNet_init Zeng args_2_1) in
  let m' := fst (HanNet_init Zeng
                   (with_geom args_2_1 ((fun nc => (phi nc.1, nc.2)) <$> geom args_2_1))) in
  fst (forward Zops Zeng Recorder m' ((fun r : Sample Z => phi <$> r) <$> batch_3_3) ([], [])) =
  fst (forward Zops Zeng Recorder m batch_3_3 ([], [])).
Proof.
  intros phi m m'.
  destruct (forward_invariant_under_isometry Zops Zeng Recorder args_2_1 phi batch_3_3
              ([], []) ([], []) (Zeng_shift_distance_preserving (1, 2, 3)%Z)) as [H _].
  apply H; reflexivity.
Defined.

Lemma HanNet_init_ignores_other_kwargs_witness :
  HanNet_init Zeng (with_kwargs args_2_1 (kwargs_before ++ ("zzz", 1%Z) :: kwargs_after)) =
  HanNet_init Zeng (with_kwargs args_2_1 (kwargs_before ++ kwargs_after)).
Proof.
  apply (HanNet_init_ignores_other_kwargs Zeng args_2_1 kwargs_before kwargs_after
           "zzz" 1%Z); discriminate.
Defined.

Lemma schnet_input_shape_witness :
  let m := fst (HanNet_init Zeng args_2_1) in
  length (features_of Zeng m [(1, 0, 0); (3, 0, 0); (7, 0, 0)]%Z) = 2 + 1 /\
  Forall (fun row => length row = 2 + 1 + 2)
    (features_of Zeng m [(1, 0, 0); (3, 0, 0); (7, 0, 0)]%Z).
Proof.
  intros m.
  apply (schnet_input_shape Zeng args_2_1 [(1, 0, 0); (3, 0, 0); (7, 0, 0)]%Z).
  reflexivity.
Defined.

Lemma same_spin_dists_count_witness :
  let m := fst (HanNet_init Zeng args_2_1) in
  2 * length (same_spin_dists Zeng m [(1, 0, 0); (3, 0, 0); (7, 0, 0)]%Z) = 2 * (2 - 1) + 1 * (1 - 1).
Proof.
  intros m.
  apply (same_spin_dists_count Zeng args_2_1 [(1, 0, 0); (3, 0, 0); (7, 0, 0)]%Z).
  reflexivity.
Defined.

Lemma tracked_parameters_names_distinct_witness :
  ("cusp_same", 4%Z) ∈ tracked_parameters (fst (HanNet_init Zeng args_cusps)) /\
  NoDup (fst <$> tracked_parameters (fst (HanNet_init Zeng args_cusps))).
Proof.
  destruct (tracked_parameters_names_distinct (fst (HanNet_init Zeng args_cusps)))
    as (Hnd & _ & _ & Hsame & _).
  split; [|exact Hnd]. apply (Hsame {| cusp := 4%Z |}). reflexivity.
Defined.



(** * Where the claims as written fail *)


